(** * The users router of fastapi-users ([fastapi_users/router/users.py])

    [get_users_router] builds five routes over three injected
    collaborators: the authenticator (principal resolution), the user
    manager (account store) and an optional [after_update] hook.  The
    routes are embedded as programs of a small state-and-exception monad;
    every collaborator call is recorded, with its outcome, in a trace, so
    that statements about which calls happen, in which order and with
    which arguments are statements about that trace. *)

From stdpp Require Import gmap strings list fin_maps.
From Stdlib Require Import ZArith.

(** ** Data model *)

(** Account identifiers ([pydantic.UUID4]): opaque, compared for equality only. *)
Abbreviation UUID := N (only parsing).

(** A JSON value of a request body; account fields are strings or booleans. *)
Inductive Value :=
| VStr (s : string)
| VBool (b : bool).

#[global] Instance Value_eq_dec : EqDecision Value.
Proof. solve_decision. Defined.

(** [user_update] as the handler receives it: the fields that the request
    body set (pydantic's [exclude_unset] view), by name. *)
Abbreviation Payload := (gmap string Value) (only parsing).

(** [Dict[str, Any]]: the change set handed to the store and to the hook. *)
Abbreviation ChangeSet := (gmap string Value) (only parsing).

(** Modelled from the spec: the account record of [fastapi_users.models]
    (section 3: identifier, email, hashed credential, the flags [active],
    [verified], [superuser], plus domain-specific profile fields). *)
Record Account := mkAccount {
  acc_id : UUID;
  acc_email : string;
  acc_hashed_password : string;
  acc_active : bool;
  acc_verified : bool;
  acc_superuser : bool;
  acc_profile : gmap string Value
}.

#[global] Instance Account_eq_dec : EqDecision Account.
Proof. solve_decision. Defined.

(** The account store, keyed by identifier. *)
Abbreviation Store := (gmap N Account) (only parsing).

(** Modelled from the spec: the request context.  Session verification is
    the authenticator's business; a request is represented by the account
    identifier its credentials authenticate as, if any. *)
Record Request := mkRequest {
  req_session : option UUID
}.

(** [fastapi_users.router.common.ErrorCode], the two members this router uses. *)
Inductive ErrorCode :=
| UPDATE_USER_INVALID_PASSWORD
| UPDATE_USER_EMAIL_ALREADY_EXISTS.

(** The [detail] argument of [HTTPException]: absent, a bare code, or the
    dictionary [{"code": ..., "reason": ...}]. *)
Inductive Detail :=
| NoDetail
| DetailCode (code : ErrorCode)
| DetailCodeReason (code : ErrorCode) (reason : string).

Definition HTTP_204_NO_CONTENT : Z := 204.
Definition HTTP_200_OK : Z := 200.
Definition HTTP_400_BAD_REQUEST : Z := 400.
Definition HTTP_404_NOT_FOUND : Z := 404.

(** Exceptions that can travel through a handler.  [AuthorizationError] is
    the gate failure of the principal resolver (section 7 of the spec: a
    401/403-equivalent produced by the collaborator); [OtherException]
    stands for any exception class the router has no clause for. *)
Inductive Exception :=
| UserNotExists
| UserAlreadyExists
| InvalidPasswordException (reason : string)
| HTTPException (status_code : Z) (detail : Detail)
| AuthorizationError
| OtherException (name : string).

Inductive Outcome (A : Type) :=
| Returns (a : A)
| Raises (e : Exception).
Arguments Returns {A} a.
Arguments Raises {A} e.

(** ** Collaborator interfaces *)

(** A collaborator call reads and writes the store and returns or raises. *)
Definition Collab (A : Type) : Type := gmap N Account → Outcome A * gmap N Account.

(** [UserManager]: the three methods the router calls. *)
Record UserManager := mkUserManager {
  um_get : UUID → Collab Account;
  um_update : Payload → Account → bool → Collab Account;
  um_delete : Account → Collab unit
}.

(** [Authenticator.current_user(active, verified, superuser)]: a dependency
    that resolves the request to a principal or raises. *)
Record Authenticator := mkAuthenticator {
  current_user : bool → bool → bool → Request → Collab Account
}.

(** [user_update_model]: the update schema class, through the two
    change-set extraction methods the router calls on its instances. *)
Record UserUpdateModel := mkUserUpdateModel {
  create_update_dict : Payload → ChangeSet;
  create_update_dict_superuser : Payload → ChangeSet
}.

(** [after_update]: [Callable[[UD, Dict[str, Any], Request], None]].  The
    hook is handed the updated account, a change set and the request, and
    neither the manager nor the store: it returns [None] or raises.  What
    a hook does to the objects it is handed, or to a store it reaches on
    its own, is outside this model; nothing below is a statement about it. *)
Definition Hook : Type := Account → ChangeSet → Request → Outcome unit.

(** ** Traces *)

(** One entry per collaborator call, with the arguments and the outcome. *)
Inductive Event :=
| EvResolve (active verified superuser : bool) (request : Request) (res : Outcome Account)
| EvGet (id : UUID) (res : Outcome Account)
| EvUpdate (user_update : Payload) (user : Account) (safe : bool) (res : Outcome Account)
| EvDelete (user : Account) (res : Outcome unit)
| EvNotify (user : Account) (update_dict : ChangeSet) (request : Request) (res : Outcome unit).

Definition is_notify (e : Event) : bool :=
  match e with EvNotify _ _ _ _ => true | _ => false end.
Definition is_update (e : Event) : bool :=
  match e with EvUpdate _ _ _ _ => true | _ => false end.
Definition is_get (e : Event) : bool :=
  match e with EvGet _ _ => true | _ => false end.
Definition is_delete (e : Event) : bool :=
  match e with EvDelete _ _ => true | _ => false end.
Definition is_resolve (e : Event) : bool :=
  match e with EvResolve _ _ _ _ _ => true | _ => false end.

(** Lookup, policy, persist and notify: everything behind the gate. *)
Definition is_core (e : Event) : bool := negb (is_resolve e).

(** ** The handler monad *)

Record World := mkWorld {
  store : gmap N Account;
  trace : list Event
}.

Definition M (A : Type) : Type := World → Outcome A * World.

Definition ret {A} (a : A) : M A := λ w, (Returns a, w).

Definition raise {A} (e : Exception) : M A := λ w, (Raises e, w).

Definition bind {A B} (m : M A) (k : A → M B) : M B :=
  λ w, match m w with
       | (Returns a, w') => k a w'
       | (Raises e, w') => (Raises e, w')
       end.

Notation "x <~ m ;; k" := (bind m (λ x, k))
  (at level 100, m at next level, right associativity).
Notation "m ;;; k" := (bind m (λ _, k))
  (at level 100, right associativity).

(** [try: body except <clauses>]: a raised exception is offered to the
    clauses; one that no clause matches keeps propagating. *)
Definition try_except {A} (body : M A) (clauses : Exception → option (M A)) : M A :=
  λ w, match body w with
       | (Returns a, w') => (Returns a, w')
       | (Raises e, w') =>
           match clauses e with
           | Some handler => handler w'
           | None => (Raises e, w')
           end
       end.

(** [await collaborator(...)]: run the call on the store and log it. *)
Definition call {A} (c : Collab A) (ev : Outcome A → Event) : M A :=
  λ w, let '(r, s') := c (store w) in
       (r, {| store := s'; trace := trace w ++ [ev r] |}).

(** [await run_handler(handler, *args)] ([fastapi_users.router.common]):
    invoke the hook with the given arguments; what it raises propagates. *)
Definition run_handler (handler : Hook) (user : Account) (update_dict : ChangeSet)
    (request : Request) : M unit :=
  λ w, let r := handler user update_dict request in
       (r, {| store := store w;
              trace := trace w ++ [EvNotify user update_dict request r] |}).

(** ** The router *)

(** What a route sends back: the status code and the serialised body
    (serialisation itself, which hides the hashed credential, belongs to
    the framework). *)
Record Response := mkResponse {
  status_code : Z;
  body : option Account
}.

(** The five operations of the router, with what the framework parses
    from path and body. *)
Inductive Operation :=
| GET_me
| PATCH_me (user_update : Payload)
| GET_id (id : UUID)
| PATCH_id (id : UUID) (user_update : Payload)
| DELETE_id (id : UUID).

Section Router.

(** The arguments of [get_users_router]; [get_user_manager] stands for
    the manager that the dependency of that name yields. *)
Variable get_user_manager : UserManager.
Variable user_update_model : UserUpdateModel.
Variable authenticator : Authenticator.
Variable after_update : option Hook.
Variable requires_verification : bool.

Definition get_current_active_user (request : Request) : M Account :=
  call (current_user authenticator true requires_verification false request)
       (EvResolve true requires_verification false request).

Definition get_current_superuser (request : Request) : M Account :=
  call (current_user authenticator true requires_verification true request)
       (EvResolve true requires_verification true request).

Definition get_user_or_404 (id : UUID) : M Account :=
  try_except
    (call (um_get get_user_manager id) (EvGet id))
    (λ e, match e with
          | UserNotExists => Some (raise (HTTPException HTTP_404_NOT_FOUND NoDetail))
          | _ => None
          end).

Definition me (user : Account) : M Account := ret user.

Definition update_me (request : Request) (user_update : Payload) (user : Account)
    : M Account :=
  try_except
    (updated_user <~ call (um_update get_user_manager user_update user true)
                          (EvUpdate user_update user true) ;;
     match after_update with
     | Some hook =>
         run_handler hook updated_user
           (create_update_dict user_update_model user_update) request
     | None => ret tt
     end ;;;
     ret updated_user)
    (λ e, match e with
          | InvalidPasswordException reason =>
              Some (raise (HTTPException HTTP_400_BAD_REQUEST
                             (DetailCodeReason UPDATE_USER_INVALID_PASSWORD reason)))
          | UserAlreadyExists =>
              Some (raise (HTTPException HTTP_400_BAD_REQUEST
                             (DetailCode UPDATE_USER_EMAIL_ALREADY_EXISTS)))
          | _ => None
          end).

Definition get_user (user : Account) : M Account := ret user.

Definition update_user (user_update : Payload) (request : Request) (user : Account)
    : M Account :=
  try_except
    (updated_user <~ call (um_update get_user_manager user_update user false)
                          (EvUpdate user_update user false) ;;
     match after_update with
     | Some hook =>
         run_handler hook updated_user
           (create_update_dict_superuser user_update_model user_update) request
     | None => ret tt
     end ;;;
     ret updated_user)
    (λ e, match e with
          | InvalidPasswordException reason =>
              Some (raise (HTTPException HTTP_400_BAD_REQUEST
                             (DetailCodeReason UPDATE_USER_INVALID_PASSWORD reason)))
          | UserAlreadyExists =>
              Some (raise (HTTPException HTTP_400_BAD_REQUEST
                             (DetailCode UPDATE_USER_EMAIL_ALREADY_EXISTS)))
          | _ => None
          end).

Definition delete_user (user : Account) : M unit :=
  call (um_delete get_user_manager user) (EvDelete user) ;;;
  ret tt.

(** The route table.  The framework resolves the dependencies of the
    decorator first, then those of the handler's parameters in order,
    and calls the handler only when all of them returned; a dependency
    named twice for one request ([get_current_active_user] of
    [PATCH /me]) is resolved once.  The status code is 200 unless the
    decorator sets one. *)
Definition router (op : Operation) (request : Request) : M Response :=
  match op with
  | GET_me =>
      user <~ get_current_active_user request ;;
      r <~ me user ;;
      ret (mkResponse HTTP_200_OK (Some r))
  | PATCH_me user_update =>
      user <~ get_current_active_user request ;;
      r <~ update_me request user_update user ;;
      ret (mkResponse HTTP_200_OK (Some r))
  | GET_id id =>
      get_current_superuser request ;;;
      user <~ get_user_or_404 id ;;
      r <~ get_user user ;;
      ret (mkResponse HTTP_200_OK (Some r))
  | PATCH_id id user_update =>
      get_current_superuser request ;;;
      user <~ get_user_or_404 id ;;
      r <~ update_user user_update request user ;;
      ret (mkResponse HTTP_200_OK (Some r))
  | DELETE_id id =>
      get_current_superuser request ;;;
      user <~ get_user_or_404 id ;;
      delete_user user ;;;
      ret (mkResponse HTTP_204_NO_CONTENT None)
  end.

End Router.

(** Running a route from a store, with an empty trace. *)
Definition run {A} (m : M A) (s : gmap N Account) : Outcome A * World :=
  m {| store := s; trace := [] |}.

(** ** Collaborators outside [users.py], modelled from the spec *)

(** Reading a value at the type a declared field has. *)
Definition read_bool (v : Value) : option bool :=
  match v with VBool b => Some b | VStr _ => None end.

Definition read_str (v : Value) : option string :=
  match v with VStr s => Some s | VBool _ => None end.

(** Modelled from the spec: the case normalisation of emails (section 3:
    an account's email is unique across all accounts and case-normalized).
    Letters A to Z are folded to lower case; every other character is kept. *)
Definition lower_ascii (c : Ascii.ascii) : Ascii.ascii :=
  let n := Ascii.N_of_ascii c in
  if (65 <=? n)%N && (n <=? 90)%N then Ascii.ascii_of_N (n + 32) else c.

Fixpoint normalize_email (e : string) : string :=
  match e with
  | EmptyString => EmptyString
  | String c rest => String (lower_ascii c) (normalize_email rest)
  end.

(** The fields of an account that a change set can name. *)
Inductive Field :=
| FId
| FEmail
| FPassword
| FActive
| FVerified
| FSuperuser
| FProfile (name : string).

Definition field_of (k : string) : Field :=
  if String.eqb k "id" then FId
  else if String.eqb k "email" then FEmail
  else if String.eqb k "password" then FPassword
  else if String.eqb k "active" then FActive
  else if String.eqb k "verified" then FVerified
  else if String.eqb k "superuser" then FSuperuser
  else FProfile k.

(** The flags that only the privileged mode may touch. *)
Definition privileged_fields : list string := ["active"; "verified"; "superuser"].

(** [exclude ks p]: the entries of [p] whose name is not in [ks]. *)
Definition exclude (ks : list string) (p : gmap string Value) : gmap string Value :=
  foldr delete p ks.

(** Modelled from the spec: the change-set extraction of the update schema
    ([create_update_dict] and [create_update_dict_superuser] of
    [fastapi_users.models], section 4.1).  Self mode copies only the
    non-privileged fields, dropping privileged ones without an error;
    privileged mode copies all settable fields.  The identifier is
    immutable (section 3), hence not settable in either mode. *)
Definition spec_create_update_dict (p : gmap string Value) : gmap string Value :=
  exclude ("id" :: privileged_fields) p.

Definition spec_create_update_dict_superuser (p : gmap string Value) : gmap string Value :=
  exclude ["id"] p.

Definition spec_user_update_model : UserUpdateModel :=
  {| create_update_dict := spec_create_update_dict;
     create_update_dict_superuser := spec_create_update_dict_superuser |}.

(** The extraction a mode stands for: safe is the self mode, unsafe the
    privileged one. *)
Definition extract_change_set (user_update_model : UserUpdateModel)
    (user_update : gmap string Value) (safe : bool) : gmap string Value :=
  if safe then create_update_dict user_update_model user_update
  else create_update_dict_superuser user_update_model user_update.

Section SpecCollaborators.

(** The caller-defined password rules: [Some reason] rejects. *)
Variable password_rules : string → option string.
Variable get_password_hash : string → string.
Variable user_update_model : UserUpdateModel.

(** One field change applied to an account.  The identifier never
    changes; an email is stored case-normalized; a value of the wrong type
    for a declared field cannot come out of a validated body and is left
    unapplied. *)
Definition set_field (k : string) (v : Value) (a : Account) : Account :=
  match field_of k, v with
  | FEmail, VStr e =>
      mkAccount (acc_id a) (normalize_email e) (acc_hashed_password a)
                (acc_active a) (acc_verified a) (acc_superuser a) (acc_profile a)
  | FPassword, VStr pw =>
      mkAccount (acc_id a) (acc_email a) (get_password_hash pw)
                (acc_active a) (acc_verified a) (acc_superuser a) (acc_profile a)
  | FActive, VBool b =>
      mkAccount (acc_id a) (acc_email a) (acc_hashed_password a)
                b (acc_verified a) (acc_superuser a) (acc_profile a)
  | FVerified, VBool b =>
      mkAccount (acc_id a) (acc_email a) (acc_hashed_password a)
                (acc_active a) b (acc_superuser a) (acc_profile a)
  | FSuperuser, VBool b =>
      mkAccount (acc_id a) (acc_email a) (acc_hashed_password a)
                (acc_active a) (acc_verified a) b (acc_profile a)
  | FProfile name, _ =>
      mkAccount (acc_id a) (acc_email a) (acc_hashed_password a)
                (acc_active a) (acc_verified a) (acc_superuser a)
                (<[name := v]> (acc_profile a))
  | _, _ => a
  end.

Definition apply_change_set (cs : gmap string Value) (a : Account) : Account :=
  map_fold set_field a cs.

Definition proposed_password (cs : gmap string Value) : option string :=
  match cs !! "password" with
  | Some (VStr pw) => Some pw
  | _ => None
  end.

Definition proposed_email (cs : gmap string Value) : option string :=
  match cs !! "email" with
  | Some (VStr e) => Some e
  | _ => None
  end.

(** Some account other than [uid] already has the email [e], up to case. *)
Definition email_taken (e : string) (uid : UUID) (s : gmap N Account) : bool :=
  bool_decide
    (map_Exists (λ k a, k ≠ uid ∧ normalize_email (acc_email a) = normalize_email e) s).

(** Modelled from the spec: [UserManager.update] of [fastapi_users.manager]
    (section 4.2, steps 3 to 5, and [update_account] of section 6):
    extract the change set for the mode, check a proposed credential
    against the password rules, let the store refuse an email that
    another account holds, otherwise apply the change set and write the
    record.  A refused update writes nothing. *)
Definition spec_update (user_update : gmap string Value) (user : Account) (safe : bool)
    : Collab Account :=
  λ s,
    let cs := extract_change_set user_update_model user_update safe in
    match proposed_password cs ≫= password_rules with
    | Some reason => (Raises (InvalidPasswordException reason), s)
    | None =>
        match proposed_email cs with
        | Some e =>
            if email_taken e (acc_id user) s then (Raises UserAlreadyExists, s)
            else let updated := apply_change_set cs user in
                 (Returns updated, <[acc_id user := updated]> s)
        | None =>
            let updated := apply_change_set cs user in
            (Returns updated, <[acc_id user := updated]> s)
        end
    end.

(** Modelled from the spec: [UserManager.get] ([get_account] of section 6):
    the account under the identifier, or "not found". *)
Definition spec_get (id : UUID) : Collab Account :=
  λ s, match s !! id with
       | Some a => (Returns a, s)
       | None => (Raises UserNotExists, s)
       end.

(** Modelled from the spec: [UserManager.delete] ([delete_account] of
    section 6): remove the account's record. *)
Definition spec_delete (user : Account) : Collab unit :=
  λ s, (Returns tt, delete (acc_id user) s).

Definition spec_user_manager : UserManager :=
  {| um_get := spec_get; um_update := spec_update; um_delete := spec_delete |}.

End SpecCollaborators.

(** The privilege requirements a principal meets. *)
Definition meets (active verified superuser : bool) (a : Account) : bool :=
  implb active (acc_active a) && implb verified (acc_verified a)
  && implb superuser (acc_superuser a).

(** Modelled from the spec: [Authenticator.current_user] of
    [fastapi_users.authentication] ([resolve_principal] of section 6): the
    principal is the account the request authenticates as; the request
    fails outright when there is none or when it does not meet the
    required activeness, verification or privilege.  Resolution reads the
    store and writes nothing. *)
Definition spec_current_user (active verified superuser : bool) (request : Request)
    : Collab Account :=
  λ s, match req_session request ≫= (s !!.) with
       | Some a => if meets active verified superuser a then (Returns a, s)
                   else (Raises AuthorizationError, s)
       | None => (Raises AuthorizationError, s)
       end.

Definition spec_authenticator : Authenticator :=
  {| current_user := spec_current_user |}.

(** ** A concrete deployment, for examples *)

Definition demo_rules (pw : string) : option string :=
  if Nat.ltb (String.length pw) 3 then Some "Password should be at least 3 characters"
  else None.

Definition demo_hash (pw : string) : string := "hashed:" +:+ pw.

Definition demo_manager : UserManager :=
  spec_user_manager demo_rules demo_hash spec_user_update_model.

Definition alice : Account :=
  mkAccount 1 "alice@x.com" "hashed:alice" true true false ∅.
Definition bob : Account :=
  mkAccount 2 "bob@x.com" "hashed:bob" true true true ∅.
Definition carol : Account :=
  mkAccount 3 "carol@x.com" "hashed:carol" true false false ∅.

Definition demo_store : gmap N Account :=
  <[1%N := alice]> (<[2%N := bob]> (<[3%N := carol]> ∅)).

Definition as_alice : Request := mkRequest (Some 1%N).
Definition as_bob : Request := mkRequest (Some 2%N).
Definition anonymous : Request := mkRequest None.

Definition demo_router (hook : option Hook) : Operation → Request → M Response :=
  router demo_manager spec_user_update_model spec_authenticator hook false.

Definition quiet_hook : Hook := λ _ _ _, Returns tt.
Definition failing_hook (e : Exception) : Hook := λ _ _ _, Raises e.

(** An administrative body that grants privilege and suspends the account. *)
Definition promote_payload : gmap string Value :=
  <["superuser" := VBool true]> (<["active" := VBool false]> ∅).
Definition carol_promoted : Account :=
  mkAccount 3 "carol@x.com" "hashed:carol" false false true ∅.

(** Bodies that the store refuses: a credential below the rules, and an
    email that alice holds. *)
Definition weak_password_payload : gmap string Value :=
  <["password" := VStr "x"]> ∅.
Definition taken_email_payload : gmap string Value :=
  <["email" := VStr "alice@x.com"]> ∅.

(** A manager whose backend is down: the lookup and the delete fail with
    an exception the router has no clause for, and the update reports the
    account as gone. *)
Definition flaky_manager : UserManager :=
  {| um_get := λ _ s, (Raises (OtherException "ConnectionError"), s);
     um_update := λ _ _ _ s, (Raises UserNotExists, s);
     um_delete := λ _ s, (Raises (OtherException "ConnectionError"), s) |}.

Definition flaky_router : Operation → Request → M Response :=
  router flaky_manager spec_user_update_model spec_authenticator None false.

(** An authenticator that admits every request as one fixed account. *)
Definition open_authenticator (a : Account) : Authenticator :=
  {| current_user := λ _ _ _ _ s, (Returns a, s) |}.

(** A hook that rejects after the fact. *)
Definition late_hook : Hook := failing_hook (InvalidPasswordException "late").

(** alice's email in another case, and alice's email together with a
    credential below the rules. *)
Definition taken_email_variant_payload : gmap string Value :=
  <["email" := VStr "Alice@X.com"]> ∅.
Definition taken_email_weak_payload : gmap string Value :=
  <["password" := VStr "ab"]> (<["email" := VStr "alice@x.com"]> ∅).

(** A self-service body that changes the email and asks for privilege. *)
Definition elevate_payload : gmap string Value :=
  <["superuser" := VBool true]> (<["email" := VStr "new@x.com"]> ∅).
Definition alice_renamed : Account :=
  mkAccount 1 "new@x.com" "hashed:alice" true true false ∅.


(** ** Vocabulary of the statements *)

(** The routing table of the spec (section 4.2): which operations are
    admin-only, which are updates and in which mode, which address an
    account by identifier. *)
Definition requires_superuser (op : Operation) : bool :=
  match op with
  | GET_me | PATCH_me _ => false
  | GET_id _ | PATCH_id _ _ | DELETE_id _ => true
  end.

Definition update_of (op : Operation) : option (gmap string Value * bool) :=
  match op with
  | PATCH_me user_update => Some (user_update, true)
  | PATCH_id _ user_update => Some (user_update, false)
  | _ => None
  end.

Definition target_id (op : Operation) : option UUID :=
  match op with
  | GET_id id | PATCH_id id _ | DELETE_id id => Some id
  | _ => None
  end.

(** The account an update route hands to the manager's update: the
    principal on the self route, the record under the path identifier
    (the modelled lookup) on the admin route. *)
Definition update_target (op : Operation) (principal : Account)
    (s : gmap N Account) : option Account :=
  match op with
  | PATCH_me _ => Some principal
  | PATCH_id id _ => s !! id
  | _ => None
  end.

(** The two update handlers, indexed by the mode they pass to the manager. *)
Definition update_handler (um : UserManager) (model : UserUpdateModel)
    (hook : option Hook) (safe : bool) (request : Request)
    (user_update : gmap string Value) (user : Account) : M Account :=
  if safe then update_me um model hook request user_update user
  else update_user um model hook user_update request user.

(** What the [except] clauses of the update handlers turn an exception into. *)
Definition wire_error (e : Exception) : Exception :=
  match e with
  | InvalidPasswordException reason =>
      HTTPException 400 (DetailCodeReason UPDATE_USER_INVALID_PASSWORD reason)
  | UserAlreadyExists =>
      HTTPException 400 (DetailCode UPDATE_USER_EMAIL_ALREADY_EXISTS)
  | _ => e
  end.

(** The part of a route that runs once the gate has returned the principal. *)
Definition behind_gate (um : UserManager) (model : UserUpdateModel)
    (hook : option Hook) (op : Operation) (request : Request)
    (principal : Account) : M Response :=
  match op with
  | GET_me => ret (mkResponse 200 (Some principal))
  | PATCH_me user_update =>
      r <~ update_handler um model hook true request user_update principal ;;
      ret (mkResponse 200 (Some r))
  | GET_id id =>
      user <~ get_user_or_404 um id ;;
      ret (mkResponse 200 (Some user))
  | PATCH_id id user_update =>
      user <~ get_user_or_404 um id ;;
      r <~ update_handler um model hook false request user_update user ;;
      ret (mkResponse 200 (Some r))
  | DELETE_id id =>
      user <~ get_user_or_404 um id ;;
      delete_user um user ;;;
      ret (mkResponse 204 None)
  end.

(** The exception a call ended with, if it raised. *)
Definition outcome_error {A} (o : Outcome A) : option Exception :=
  match o with Returns _ => None | Raises e => Some e end.

Definition raised (ev : Event) : option Exception :=
  match ev with
  | EvResolve _ _ _ _ res => outcome_error res
  | EvGet _ res => outcome_error res
  | EvUpdate _ _ _ res => outcome_error res
  | EvDelete _ res => outcome_error res
  | EvNotify _ _ _ res => outcome_error res
  end.

Definition is_http (e : Exception) : bool :=
  match e with HTTPException _ _ => true | _ => false end.

(** How many calls of one kind a trace holds. *)
Definition count_calls (kind : Event → bool) (tr : list Event) : nat :=
  length (List.filter kind tr).

(** How many times the hook was invoked. *)
Definition count_notify (tr : list Event) : nat :=
  length (List.filter is_notify tr).

(** The three privileged flags of an account. *)
Definition privileged_flags (a : Account) : bool * bool * bool :=
  (acc_active a, acc_verified a, acc_superuser a).

#[global] Arguments update_handler : simpl never.
#[global] Arguments get_user_or_404 : simpl never.
#[global] Arguments delete_user : simpl never.
#[global] Arguments exclude : simpl never.
#[global] Arguments spec_create_update_dict : simpl never.
#[global] Arguments spec_create_update_dict_superuser : simpl never.

(** ** The monad and the router, step by step *)

Ltac trace_inv :=
  repeat match goal with
  | H : _ ∈ [] |- _ => by apply elem_of_nil in H
  | H : _ ∈ _ :: _ |- _ => apply elem_of_cons in H as [H | H]
  | H : _ ∈ _ ++ _ |- _ => apply elem_of_app in H as [H | H]
  end; simplify_eq/=.

Section RouterFacts.

Variable um : UserManager.
Variable model : UserUpdateModel.
Variable auth : Authenticator.
Variable hook : option Hook.
Variable rv : bool.

Lemma get_user_or_404_eq (id : UUID) (w : World) :
  get_user_or_404 um id w =
  let '(r, s1) := um_get um id (store w) in
  (match r with
   | Raises UserNotExists => Raises (HTTPException 404 NoDetail)
   | _ => r
   end,
   {| store := s1; trace := trace w ++ [EvGet id r] |}).
Proof.
  unfold get_user_or_404, try_except, call.
  destruct (um_get um id (store w)) as [[a | e] s1]; [done |].
  by destruct e.
Qed.

Lemma update_handler_eq (safe : bool) (request : Request)
    (user_update : gmap string Value) (user : Account) (w : World) :
  update_handler um model hook safe request user_update user w =
  let '(r, s1) := um_update um user_update user safe (store w) in
  let t1 := trace w ++ [EvUpdate user_update user safe r] in
  match r with
  | Raises e => (Raises (wire_error e), {| store := s1; trace := t1 |})
  | Returns u =>
      match hook with
      | None => (Returns u, {| store := s1; trace := t1 |})
      | Some h =>
          let cs := extract_change_set model user_update safe in
          let hr := h u cs request in
          (match hr with
           | Returns _ => Returns u
           | Raises e => Raises (wire_error e)
           end,
           {| store := s1; trace := t1 ++ [EvNotify u cs request hr] |})
      end
  end.
Proof.
  unfold update_handler, update_me, update_user, try_except, bind, call,
    run_handler, ret, raise, extract_change_set.
  destruct safe;
    (destruct (um_update _ _ _ _ _) as [[u | e] s1]; simpl;
     [ destruct hook as [h |]; simpl; [| done];
       destruct (h _ _ _) as [[] | e]; simpl; [done |]; by destruct e
     | by destruct e ]).
Qed.

Lemma router_eq (op : Operation) (request : Request) (s : gmap N Account) :
  run (router um model auth hook rv op request) s =
  let '(g, s1) := current_user auth true rv (requires_superuser op) request s in
  let ev := EvResolve true rv (requires_superuser op) request g in
  match g with
  | Raises e => (Raises e, {| store := s1; trace := [ev] |})
  | Returns principal =>
      behind_gate um model hook op request principal {| store := s1; trace := [ev] |}
  end.
Proof.
  unfold run, router, behind_gate, get_current_active_user, get_current_superuser,
    update_handler, me, get_user, bind, call, ret.
  destruct op; simpl;
    destruct (current_user auth _ _ _ _ _) as [[p | e] s1]; simpl; try done;
    repeat (match goal with
            | |- context [match ?m ?w with _ => _ end] =>
                destruct (m w) as [[?|?] ?]; simpl
            end); done.
Qed.

End RouterFacts.

(** ** The modelled collaborators *)

Lemma lookup_exclude (ks : list string) (p : gmap string Value) (k : string) :
  exclude ks p !! k = if decide (k ∈ ks) then None else p !! k.
Proof.
  unfold exclude. induction ks as [| k' ks IH]; cbn [foldr].
  - destruct (decide (k ∈ [])) as [Hk |]; [by apply elem_of_nil in Hk | done].
  - rewrite lookup_delete, IH.
    destruct (decide (k' = k)) as [-> |].
    + by rewrite decide_True by (apply elem_of_cons; auto).
    + destruct (decide (k ∈ ks)).
      * by rewrite decide_True by (apply elem_of_cons; auto).
      * rewrite decide_False; [done |].
        intros [? | ?]%elem_of_cons; congruence.
Qed.

Lemma exclude_sublist (ks ks' : list string) (p : gmap string Value) :
  ks ⊆ ks' → exclude ks' (exclude ks p) = exclude ks' p.
Proof.
  intros Hsub. apply map_eq; intros k. rewrite !lookup_exclude.
  destruct (decide (k ∈ ks')) as [| Hk]; [done |].
  rewrite decide_False; [done |]. intros ?; apply Hk; auto.
Qed.

(** Self extraction does not see the privileged flags of the payload. *)
Lemma spec_create_update_dict_strip (p : gmap string Value) :
  spec_create_update_dict (exclude privileged_fields p) = spec_create_update_dict p.
Proof.
  unfold spec_create_update_dict. apply exclude_sublist.
  intros k Hk. apply elem_of_cons; auto.
Qed.

Lemma spec_create_update_dict_privileged (p : gmap string Value) (k : string) :
  k ∈ privileged_fields → spec_create_update_dict p !! k = None.
Proof.
  intros Hk. unfold spec_create_update_dict. rewrite lookup_exclude.
  rewrite decide_True; [done |]. apply elem_of_cons; auto.
Qed.

Lemma spec_create_update_dict_other (p : gmap string Value) (k : string) :
  k ≠ "id" → k ∉ privileged_fields → spec_create_update_dict p !! k = p !! k.
Proof.
  intros Hid Hk. unfold spec_create_update_dict. rewrite lookup_exclude.
  rewrite decide_False; [done |]. intros [? | ?]%elem_of_cons; congruence.
Qed.


Lemma field_of_declared (k : string) :
  match field_of k with
  | FId => k = "id"
  | FEmail => k = "email"
  | FPassword => k = "password"
  | FActive => k = "active"
  | FVerified => k = "verified"
  | FSuperuser => k = "superuser"
  | FProfile name => name = k
  end.
Proof.
  unfold field_of.
  repeat (match goal with
          | |- context [String.eqb k ?c] => destruct (String.eqb_spec k c); [done |]
          end).
  done.
Qed.

Section SpecManagerFacts.

Variable password_rules : string → option string.
Variable get_password_hash : string → string.

#[local] Abbreviation set_one := (set_field get_password_hash).
#[local] Abbreviation apply_all := (apply_change_set get_password_hash).

(** A component that only the field named [kn] writes is, after the
    whole change set, what the entry of [kn] makes it. *)
Lemma apply_change_set_component {X} (proj : Account → X) (kn : string)
    (rd : Value → option X) (cs : gmap string Value) (a : Account) :
  (∀ k v b, proj (set_one k v b) =
            if decide (k = kn) then default (proj b) (rd v) else proj b) →
  proj (apply_all cs a) = default (proj a) (cs !! kn ≫= rd).
Proof.
  intros Hstep. unfold apply_change_set.
  apply (map_fold_weak_ind
           (λ r m, proj r = default (proj a) (m !! kn ≫= rd))).
  - by rewrite lookup_empty.
  - intros i x m r Hi IH. rewrite Hstep.
    destruct (decide (i = kn)) as [-> |].
    + rewrite lookup_insert_eq; simpl. rewrite IH, Hi; simpl.
      by destruct (rd x).
    + by rewrite lookup_insert_ne.
Qed.

Ltac field_step :=
  let k := fresh "k" in let v := fresh "v" in let b := fresh "b" in
  let Hk := fresh "Hk" in let Hf := fresh "Hf" in
  intros k v b; unfold set_field;
  pose proof (field_of_declared k) as Hk;
  destruct (field_of k) eqn:Hf; destruct v; simpl;
  first [ done
        | case_decide; subst; first [ done | by vm_compute in Hf ] ].

Lemma apply_change_set_id (cs : gmap string Value) (a : Account) :
  acc_id (apply_all cs a) = acc_id a.
Proof.
  rewrite (apply_change_set_component acc_id "id" (λ _, None)).
  - by destruct (cs !! "id").
  - field_step.
Qed.

Lemma apply_change_set_superuser (cs : gmap string Value) (a : Account) :
  acc_superuser (apply_all cs a)
  = default (acc_superuser a) (cs !! "superuser" ≫= read_bool).
Proof. apply apply_change_set_component. field_step. Qed.

Lemma apply_change_set_verified (cs : gmap string Value) (a : Account) :
  acc_verified (apply_all cs a)
  = default (acc_verified a) (cs !! "verified" ≫= read_bool).
Proof. apply apply_change_set_component. field_step. Qed.

Lemma apply_change_set_active (cs : gmap string Value) (a : Account) :
  acc_active (apply_all cs a)
  = default (acc_active a) (cs !! "active" ≫= read_bool).
Proof. apply apply_change_set_component. field_step. Qed.

Lemma apply_change_set_email (cs : gmap string Value) (a : Account) :
  acc_email (apply_all cs a)
  = default (acc_email a) (cs !! "email" ≫= λ v, normalize_email <$> read_str v).
Proof. apply apply_change_set_component. field_step. Qed.

End SpecManagerFacts.

Lemma email_taken_true (e : string) (uid : UUID) (s : gmap N Account) :
  email_taken e uid s = true ↔
  ∃ k a, s !! k = Some a ∧ k ≠ uid
         ∧ normalize_email (acc_email a) = normalize_email e.
Proof.
  unfold email_taken. rewrite bool_decide_eq_true. unfold map_Exists.
  split; intros (k & a & ?); exists k, a; tauto.
Qed.

Section SpecUpdateFacts.

Variable password_rules : string → option string.
Variable get_password_hash : string → string.
Variable model : UserUpdateModel.

#[local] Abbreviation update :=
  (spec_update password_rules get_password_hash model).

(** The modelled update either refuses and writes nothing, or writes the
    account with the extracted change set applied under its identifier. *)
Lemma spec_update_returns (p : gmap string Value) (user : Account) (safe : bool)
    (s s' : gmap N Account) (u : Account) :
  update p user safe s = (Returns u, s') →
  u = apply_change_set get_password_hash (extract_change_set model p safe) user
  ∧ s' = <[acc_id user := u]> s.
Proof.
  unfold spec_update. intros H.
  destruct (proposed_password _ ≫= password_rules); [done |].
  destruct (proposed_email _); [destruct (email_taken _ _ _) |]; by simplify_eq.
Qed.

Lemma spec_update_raises (p : gmap string Value) (user : Account) (safe : bool)
    (s s' : gmap N Account) (e : Exception) :
  update p user safe s = (Raises e, s') → s' = s.
Proof.
  unfold spec_update. intros H.
  destruct (proposed_password _ ≫= password_rules); [by simplify_eq |].
  destruct (proposed_email _); [destruct (email_taken _ _ _) |]; by simplify_eq.
Qed.

(** The already-exists conflict is raised exactly for a proposed email
    that another account holds up to case, once a proposed credential has
    passed. *)
Lemma spec_update_conflict (p : gmap string Value) (user : Account) (safe : bool)
    (s : gmap N Account) :
  fst (update p user safe s) = Raises UserAlreadyExists ↔
  proposed_password (extract_change_set model p safe) ≫= password_rules = None
  ∧ ∃ e k a, proposed_email (extract_change_set model p safe) = Some e
             ∧ s !! k = Some a ∧ k ≠ acc_id user
             ∧ normalize_email (acc_email a) = normalize_email e.
Proof.
  unfold spec_update.
  destruct (proposed_password _ ≫= password_rules); simpl.
  { split; [done | by intros [? _]]. }
  destruct (proposed_email _) as [e |]; simpl.
  - destruct (email_taken e (acc_id user) s) eqn:Ht; simpl.
    + apply email_taken_true in Ht as (k & a & Hk & Hne & He).
      split; [intros _; split; [done | by exists e, k, a] | done].
    + split; [done |]. intros (_ & e' & k & a & ? & ?); simplify_eq.
      assert (email_taken e' (acc_id user) s = true) by (apply email_taken_true; eauto).
      congruence.
  - split; [done |]. by intros (_ & e' & k & a & ? & ?).
Qed.

(** With a proposed email that another account holds, the update is
    refused and writes nothing: for the credential when the rules reject
    it, otherwise for the conflict. *)
Lemma spec_update_collision (p : gmap string Value) (user : Account) (safe : bool)
    (s : gmap N Account) (e : string) (k : UUID) (a : Account) :
  proposed_email (extract_change_set model p safe) = Some e →
  s !! k = Some a → k ≠ acc_id user →
  normalize_email (acc_email a) = normalize_email e →
  update p user safe s
  = (Raises match proposed_password (extract_change_set model p safe)
                  ≫= password_rules with
            | Some reason => InvalidPasswordException reason
            | None => UserAlreadyExists
            end, s).
Proof.
  intros He Hk Hne Ha. unfold spec_update.
  destruct (proposed_password _ ≫= password_rules); [done |].
  rewrite He.
  assert (email_taken e (acc_id user) s = true) as ->
    by (apply email_taken_true; eauto).
  done.
Qed.

Lemma spec_update_id (p : gmap string Value) (user : Account) (safe : bool)
    (s s' : gmap N Account) (u : Account) :
  update p user safe s = (Returns u, s') → acc_id u = acc_id user.
Proof. intros [-> _]%spec_update_returns. apply apply_change_set_id. Qed.

(** An update touches no record but the one of the account it is given. *)
Lemma spec_update_others (p : gmap string Value) (user : Account) (safe : bool)
    (s : gmap N Account) (id : UUID) :
  id ≠ acc_id user → snd (update p user safe s) !! id = s !! id.
Proof.
  intros Hid. destruct (update p user safe s) as [[u | e] s'] eqn:H; simpl.
  - apply spec_update_returns in H as [_ ->]. by rewrite lookup_insert_ne.
  - by apply spec_update_raises in H as ->.
Qed.

End SpecUpdateFacts.

(** In self mode under the modelled schema, the privileged flags of the
    written account are those of the account the update was given. *)
Lemma spec_update_safe_flags rules hash (p : gmap string Value) (user u : Account)
    (s s' : gmap N Account) :
  spec_update rules hash spec_user_update_model p user true s = (Returns u, s') →
  privileged_flags u = privileged_flags user.
Proof.
  intros [-> _]%spec_update_returns. unfold privileged_flags, extract_change_set; simpl.
  rewrite apply_change_set_active, apply_change_set_verified, apply_change_set_superuser.
  rewrite !spec_create_update_dict_privileged; [done | | |];
    unfold privileged_fields; rewrite !elem_of_cons; auto.
Qed.


(** Self mode under the modelled schema never looks at the privileged
    entries of the payload. *)
Lemma spec_update_safe_strip rules hash (p : gmap string Value) (user : Account)
    (s : gmap N Account) :
  spec_update rules hash spec_user_update_model (exclude privileged_fields p) user true s
  = spec_update rules hash spec_user_update_model p user true s.
Proof.
  unfold spec_update, extract_change_set; simpl.
  by rewrite spec_create_update_dict_strip.
Qed.

(** The store after [PATCH /me]: what the gate left, passed through the
    update of the principal when the gate returned one. *)
Lemma patch_me_store
    (um : UserManager) (model : UserUpdateModel) (auth : Authenticator)
    (hook : option Hook) (rv : bool)
    (payload : gmap string Value) (request : Request) (s : gmap N Account) :
  store (snd (run (router um model auth hook rv (PATCH_me payload) request) s))
  = match fst (current_user auth true rv false request s) with
    | Returns principal =>
        snd (um_update um payload principal true
               (snd (current_user auth true rv false request s)))
    | Raises _ => snd (current_user auth true rv false request s)
    end.
Proof.
  rewrite router_eq; simpl.
  destruct (current_user auth true rv false request s) as [[principal | e] s1];
    simpl; [| done].
  unfold bind. rewrite update_handler_eq; simpl.
  destruct (um_update um payload principal true s1) as [[u | e] s2]; simpl; [| done].
  destruct hook as [h |]; simpl; [| done].
  by destruct (h _ _ _) as [[] | e].
Qed.

(** For the modelled manager: a request on [PATCH /me] leaves every record
    but the principal's as the gate left it. *)
Lemma self_update_touches_only_principal
    (rules : string → option string) (hash : string → string)
    (model : UserUpdateModel) (auth : Authenticator) (hook : option Hook) (rv : bool)
    (payload : gmap string Value) (request : Request) (s : gmap N Account) (id : UUID) :
  let out := run (router (spec_user_manager rules hash model) model auth hook rv
                    (PATCH_me payload) request) s in
  let gate := current_user auth true rv false request s in
  (∀ principal, fst gate = Returns principal → id ≠ acc_id principal) →
  store (snd out) !! id = snd gate !! id.
Proof.
  intros out gate Hid. subst out gate. rewrite patch_me_store.
  destruct (current_user auth true rv false request s) as [[principal | e] s1];
    simpl in *; [| done].
  apply spec_update_others. by apply Hid.
Qed.

Lemma wire_error_other (e : Exception) :
  (∀ reason, e ≠ InvalidPasswordException reason) → e ≠ UserAlreadyExists →
  wire_error e = e.
Proof.
  intros Hp Ha. destruct e as [| | reason | | |]; simpl; try done.
  by destruct (Hp reason).
Qed.

Lemma meets_true (verified superuser : bool) (a : Account) :
  meets true verified superuser a = true ↔
  acc_active a = true
  ∧ (verified = true → acc_verified a = true)
  ∧ (superuser = true → acc_superuser a = true).
Proof.
  unfold meets.
  destruct (acc_active a), verified, (acc_verified a), superuser, (acc_superuser a);
    simpl; intuition congruence.
Qed.

(** Case analysis on every collaborator call of a route. *)
Ltac run_cases :=
  repeat first
    [ rewrite get_user_or_404_eq
    | rewrite update_handler_eq
    | progress (unfold bind, ret, delete_user, call; simpl)
    | match goal with
      | |- context [um_get ?um ?id ?s] =>
          destruct (um_get um id s) as [[? | []] ?] eqn:?
      | |- context [um_update ?um ?p ?u ?sf ?s] =>
          destruct (um_update um p u sf s) as [[? | ?] ?]
      | |- context [um_delete ?um ?u ?s] =>
          destruct (um_delete um u s) as [[[] | ?] ?]
      | |- context [match ?hook with Some _ => _ | None => _ end] =>
          is_var hook; destruct hook
      | |- context [match ?h ?u ?cs ?rq with Returns _ => _ | Raises _ => _ end] =>
          destruct (h u cs rq) as [[] | ?] eqn:?
      end ].

(** What the assumption about raised exceptions says of each entry of a
    concrete trace. *)
Ltac feed_raised H tr :=
  lazymatch tr with
  | ?ev :: ?rest =>
      try (let Hn := fresh "Hr" in
           assert (∃ e, raised ev = Some e ∧ is_http e = false) as Hn
             by (eexists; split;
                 [reflexivity
                 | eapply H; [rewrite !elem_of_cons; auto 10 | reflexivity]]));
      feed_raised H rest
  | _ => idtac
  end.

Ltac in_trace := apply list_elem_of_In; vm_compute; intuition reflexivity.

(** ** Properties of the routes *)

(** C1.  On [PATCH /me] the update is invoked in safe mode, and whatever
    the payload says about [superuser], [verified] and [active], the
    account that results carries the flags of the account the update was
    given; a refused update writes nothing.  The privileged entries are
    dropped silently: the response and the store are those of the same
    request with these entries removed from the payload. *)
Theorem self_update_keeps_privileged_flags
    (rules : string → option string) (hash : string → string)
    (auth : Authenticator) (hook : option Hook) (rv : bool)
    (payload : gmap string Value) (request : Request) (s : gmap N Account)
    (p : gmap string Value) (t : Account) (sf : bool) (res : Outcome Account) :
  let R := router (spec_user_manager rules hash spec_user_update_model)
                  spec_user_update_model auth hook rv in
  let out := run (R (PATCH_me payload) request) s in
  let out' := run (R (PATCH_me (exclude privileged_fields payload)) request) s in
  EvUpdate p t sf res ∈ trace (snd out) →
  sf = true ∧ p = payload
  ∧ match res with
    | Returns updated =>
        privileged_flags updated = privileged_flags t
        ∧ store (snd out) !! acc_id t = Some updated
        ∧ (∀ resp, fst out = Returns resp → body resp = Some updated)
    | Raises _ =>
        store (snd out) = snd (current_user auth true rv false request s)
    end
  ∧ fst out' = fst out ∧ store (snd out') = store (snd out).
Proof.
  intros R out out'. subst out out' R. rewrite !router_eq; simpl.
  destruct (current_user auth true rv false request s) as [[principal | e] s1];
    simpl; [| intros; trace_inv].
  unfold bind. rewrite !update_handler_eq; simpl.
  rewrite spec_update_safe_strip, spec_create_update_dict_strip.
  destruct (spec_update _ _ _ _ _ _ _) as [[u | e] s2] eqn:Hu; simpl.
  - pose proof (spec_update_safe_flags _ _ _ _ _ _ _ Hu) as Hflags.
    apply spec_update_returns in Hu as [_ ->].
    destruct hook as [h |]; simpl;
      [destruct (h _ _ _) as [[] | e]; simpl |];
      intros Hin; trace_inv;
      (split_and!;
       first [ done
             | by unfold privileged_flags; congruence
             | by rewrite lookup_insert_eq
             | by intros resp Hresp; simplify_eq/= ]).
  - apply spec_update_raises in Hu as ->.
    intros Hin; trace_inv. by split_and!.
Qed.

Lemma self_update_keeps_privileged_flags_witness :
  let out := run (demo_router None (PATCH_me elevate_payload) as_alice) demo_store in
  EvUpdate elevate_payload alice true (Returns alice_renamed) ∈ trace (snd out)
  ∧ privileged_flags alice_renamed = privileged_flags alice
  ∧ store (snd out) !! 1%N = Some alice_renamed.
Proof.
  intros out.
  assert (EvUpdate elevate_payload alice true (Returns alice_renamed)
          ∈ trace (snd out)) as Hin by in_trace.
  split; [exact Hin |].
  destruct (self_update_keeps_privileged_flags demo_rules demo_hash
              spec_authenticator None false elevate_payload as_alice demo_store
              _ _ _ _ Hin) as (_ & _ & (Hflags & Hstore & _) & _).
  split; [exact Hflags | exact Hstore].
Defined.

(** C2.  [PATCH /me] takes no identifier: it performs no lookup and no
    deletion, the only account it passes to the manager's update is the
    principal that the gate resolved for this request, with this request's
    payload and in safe mode, and the store it leaves is the store the gate
    left, passed through that one update. *)
Theorem self_update_targets_principal
    (um : UserManager) (model : UserUpdateModel) (auth : Authenticator)
    (hook : option Hook) (rv : bool)
    (payload : gmap string Value) (request : Request) (s : gmap N Account) :
  let out := run (router um model auth hook rv (PATCH_me payload) request) s in
  let gate := current_user auth true rv false request s in
  (∀ e, e ∈ trace (snd out) → is_get e = false ∧ is_delete e = false)
  ∧ (∀ p t sf res, EvUpdate p t sf res ∈ trace (snd out) →
       fst gate = Returns t ∧ p = payload ∧ sf = true)
  ∧ store (snd out)
    = match fst gate with
      | Returns principal => snd (um_update um payload principal true (snd gate))
      | Raises _ => snd gate
      end.
Proof.
  intros out gate. subst out gate. rewrite router_eq; simpl.
  destruct (current_user auth true rv false request s) as [[principal | e] s1]; simpl.
  - unfold bind. rewrite update_handler_eq; simpl.
    destruct (um_update um payload principal true s1) as [[u | e] s2]; simpl;
      [destruct hook as [h |]; simpl; [destruct (h _ _ _) as [[] | e]; simpl |] |];
      (split_and!; [intros ev Hin | intros p t sf res Hin | done]; by trace_inv).
  - split_and!; [intros ev Hin | intros p t sf res Hin | done]; by trace_inv.
Qed.

Lemma self_update_targets_principal_witness :
  let out := run (demo_router None (PATCH_me elevate_payload) as_alice) demo_store in
  EvUpdate elevate_payload alice true (Returns alice_renamed) ∈ trace (snd out)
  ∧ fst (spec_current_user true false false as_alice demo_store) = Returns alice.
Proof.
  intros out.
  assert (EvUpdate elevate_payload alice true (Returns alice_renamed)
          ∈ trace (snd out)) as Hin by in_trace.
  split; [exact Hin |].
  destruct (self_update_targets_principal demo_manager spec_user_update_model
              spec_authenticator None false elevate_payload as_alice demo_store)
    as (_ & Hupd & _).
  exact (proj1 (Hupd _ _ _ _ Hin)).
Defined.





(** C4.  Every route first calls the principal resolver with the
    requirements of its row: active, verified exactly when verification is
    configured as required, and superuser exactly on the id-addressed
    routes.  That call is the first entry of the trace and the only call of
    the resolver; when it raises, the request ends with what it raised,
    with no other call made and the store as the resolver left it.  For
    the modelled resolver, a request is admitted exactly when it
    authenticates as an account that meets these requirements, and a
    refusal is an authorization error that leaves the store untouched. *)
Theorem gate_precedes_core
    (um : UserManager) (model : UserUpdateModel) (auth : Authenticator)
    (hook : option Hook) (rv : bool)
    (op : Operation) (request : Request) (s : gmap N Account) :
  let out := run (router um model auth hook rv op request) s in
  let su := requires_superuser op in
  let gate := current_user auth true rv su request s in
  (∃ rest, trace (snd out) = EvResolve true rv su request (fst gate) :: rest
           ∧ Forall (λ e, is_core e = true) rest)
  ∧ (∀ e, fst gate = Raises e →
       out = (Raises e,
              {| store := snd gate;
                 trace := [EvResolve true rv su request (Raises e)] |}))
  ∧ (∀ a, fst (spec_current_user true rv su request s) = Returns a ↔
          req_session request ≫= (s !!.) = Some a
          ∧ acc_active a = true
          ∧ (rv = true → acc_verified a = true)
          ∧ (su = true → acc_superuser a = true))
  ∧ (∀ e, fst (spec_current_user true rv su request s) = Raises e →
          e = AuthorizationError)
  ∧ snd (spec_current_user true rv su request s) = s
  ∧ (su = true ↔ is_Some (target_id op)).
Proof.
  intros out su gate. subst out gate. split_and!;
    [| | | | | subst su; destruct op; simpl;
               (split; [first [done | by eexists] | first [done | by intros [? ?]]])].
  - rewrite router_eq. fold su.
    destruct (current_user auth true rv su request s) as [[principal | e] s1];
      simpl; [| by eexists].
    subst su. destruct op; simpl; run_cases;
      (eexists; split; [reflexivity | by repeat constructor]).
  - intros e He. rewrite router_eq. fold su.
    destruct (current_user auth true rv su request s) as [[principal | e'] s1];
      simpl in *; by simplify_eq.
  - intros a. unfold spec_current_user. rewrite <- meets_true.
    destruct (req_session request ≫= (s !!.)) as [a' |]; simpl.
    + destruct (meets true rv su a') eqn:Hm; simpl.
      * split; [intros [= <-]; by split | by intros [[= <-] _]].
      * split; [done | intros [[= <-] ?]; congruence].
    + split; [done | by intros [? _]].
  - intros e. unfold spec_current_user.
    destruct (req_session request ≫= (s !!.)) as [a' |]; simpl;
      [destruct (meets _ _ _ _) |]; simpl; congruence.
  - unfold spec_current_user.
    destruct (req_session request ≫= (s !!.)) as [a' |]; simpl;
      [by destruct (meets _ _ _ _) | done].
Qed.

Lemma gate_precedes_core_witness :
  fst (spec_current_user true false true as_alice demo_store)
  = Raises AuthorizationError
  ∧ run (demo_router (Some quiet_hook) (DELETE_id 3) as_alice) demo_store
    = (Raises AuthorizationError,
       {| store := demo_store;
          trace := [EvResolve true false true as_alice (Raises AuthorizationError)] |}).
Proof.
  assert (fst (spec_current_user true false true as_alice demo_store)
          = Raises AuthorizationError) as Hgate by (vm_compute; reflexivity).
  split; [exact Hgate |].
  destruct (gate_precedes_core demo_manager spec_user_update_model
              spec_authenticator (Some quiet_hook) false (DELETE_id 3) as_alice
              demo_store) as (_ & Hfail & _).
  exact (Hfail _ Hgate).
Defined.




(** C6.  Whichever update route is invoked, an invalid-password error
    raised by the manager's update becomes a 400 error that carries the
    code [UPDATE_USER_INVALID_PASSWORD] and the reason of the exception,
    and an already-exists error becomes a 400 error with the fixed code
    [UPDATE_USER_EMAIL_ALREADY_EXISTS]. *)
Theorem domain_errors_map_to_400
    (um : UserManager) (model : UserUpdateModel) (auth : Authenticator)
    (hook : option Hook) (rv : bool)
    (op : Operation) (request : Request) (s : gmap N Account)
    (p : gmap string Value) (t : Account) (sf : bool) (e : Exception) :
  let out := run (router um model auth hook rv op request) s in
  EvUpdate p t sf (Raises e) ∈ trace (snd out) →
  update_of op = Some (p, sf)
  ∧ (∀ reason, e = InvalidPasswordException reason →
       fst out = Raises (HTTPException 400
                           (DetailCodeReason UPDATE_USER_INVALID_PASSWORD reason)))
  ∧ (e = UserAlreadyExists →
       fst out = Raises (HTTPException 400
                           (DetailCode UPDATE_USER_EMAIL_ALREADY_EXISTS))).
Proof.
  intros out. subst out. rewrite router_eq.
  destruct op; simpl;
    destruct (current_user auth true rv _ request s) as [[principal | e0] s1];
    simpl; run_cases; intros Hin; trace_inv;
    (split_and!; [done | by intros reason [= ->] | by intros [= ->]]).
Qed.

Lemma domain_errors_map_to_400_witness :
  let self := run (demo_router None (PATCH_me weak_password_payload) as_alice)
                  demo_store in
  let admin := run (demo_router None (PATCH_id 3 weak_password_payload) as_bob)
                   demo_store in
  let e := InvalidPasswordException "Password should be at least 3 characters" in
  (EvUpdate weak_password_payload alice true (Raises e) ∈ trace (snd self)
   ∧ EvUpdate weak_password_payload carol false (Raises e) ∈ trace (snd admin))
  ∧ fst self = fst admin
  ∧ fst self = Raises (HTTPException 400
                         (DetailCodeReason UPDATE_USER_INVALID_PASSWORD
                            "Password should be at least 3 characters")).
Proof.
  intros self admin e.
  assert (EvUpdate weak_password_payload alice true (Raises e) ∈ trace (snd self))
    as Hself by in_trace.
  assert (EvUpdate weak_password_payload carol false (Raises e) ∈ trace (snd admin))
    as Hadmin by in_trace.
  split; [by split |].
  destruct (domain_errors_map_to_400 demo_manager spec_user_update_model
              spec_authenticator None false _ as_alice demo_store _ _ _ _ Hself)
    as (_ & Hs & _).
  destruct (domain_errors_map_to_400 demo_manager spec_user_update_model
              spec_authenticator None false _ as_bob demo_store _ _ _ _ Hadmin)
    as (_ & Ha & _).
  split; [| exact (Hs _ eq_refl)].
  exact (eq_trans (Hs _ eq_refl) (eq_sym (Ha _ eq_refl))).
Defined.

(** C7.  On an update route the hook is invoked exactly when one is
    configured and the manager's update returned: with the account the
    update returned, the change set that the route's mode extracts from
    the payload (safe extraction on the self route, privileged on the
    admin route) and the request.  It is invoked at most once, directly
    after the successful update and as the last call of the request. *)
Theorem notification_follows_successful_update
    (um : UserManager) (model : UserUpdateModel) (auth : Authenticator)
    (hook : option Hook) (rv : bool)
    (op : Operation) (request : Request) (s : gmap N Account)
    (payload : gmap string Value) (safe : bool) :
  let out := run (router um model auth hook rv op request) s in
  update_of op = Some (payload, safe) →
  (∀ u cs rq res,
     EvNotify u cs rq res ∈ trace (snd out) ↔
     ∃ h t, hook = Some h
            ∧ EvUpdate payload t safe (Returns u) ∈ trace (snd out)
            ∧ cs = extract_change_set model payload safe
            ∧ rq = request
            ∧ res = h u cs rq)
  ∧ (∀ pre e post,
       trace (snd out) = pre ++ e :: post → is_notify e = true →
       post = []
       ∧ ∃ pre' t u, pre = pre' ++ [EvUpdate payload t safe (Returns u)])
  ∧ count_notify (trace (snd out)) ≤ 1.
Proof.
  intros out Hop. subst out. rewrite router_eq.
  destruct op; simplify_eq/=;
    destruct (current_user auth true rv _ request s) as [[principal | e0] s1];
    simpl; run_cases.
  all: split_and!; [| | unfold count_notify; simpl; lia].
  all: try (intros u cs rq res; split;
            [ intros Hin; trace_inv;
              (eexists _, _; (split; [reflexivity |]);
               (split; [rewrite !elem_of_cons; eauto |]); by split_and!)
            | intros (h' & t & Hh & Hin & -> & -> & ->); simplify_eq; trace_inv;
              (rewrite !elem_of_cons; intuition congruence) ]; fail).
  all: intros pre ev post Htr Hev;
    repeat (destruct pre as [| ? pre]; simplify_eq/=);
    (split; [done |]);
    first [ by eexists [], _, _ | by eexists [_], _, _ | by eexists [_; _], _, _ ].
Qed.

Lemma notification_follows_successful_update_witness :
  let out := run (demo_router (Some quiet_hook) (PATCH_me elevate_payload) as_alice)
                 demo_store in
  update_of (PATCH_me elevate_payload) = Some (elevate_payload, true)
  ∧ EvNotify alice_renamed (spec_create_update_dict elevate_payload) as_alice
      (Returns tt) ∈ trace (snd out)
  ∧ count_notify (trace (snd out)) ≤ 1.
Proof.
  intros out.
  destruct (notification_follows_successful_update demo_manager
              spec_user_update_model spec_authenticator (Some quiet_hook) false
              (PATCH_me elevate_payload) as_alice demo_store elevate_payload true
              eq_refl) as (Hiff & _ & Hcount).
  split; [reflexivity |]. split; [| exact Hcount].
  apply Hiff. exists quiet_hook, alice.
  split; [reflexivity |]. split; [in_trace |]. by split_and!.
Defined.

(** C8 (as amended).  When a request reaches the update (the gate
    admitted the caller and, on the admin route, the target exists) and
    proposes an email that another account holds, the request ends with a
    400 error: the one of code [UPDATE_USER_EMAIL_ALREADY_EXISTS], unless
    the payload also proposes a credential that the password rules reject,
    in which case it is the invalid-password error with its reason.  In
    both cases the update was called and refused, the store is exactly as
    it was before the update, the target's record included, and the hook is
    not invoked. *)
Theorem email_conflict_is_atomic
    (rules : string → option string) (hash : string → string)
    (model : UserUpdateModel) (auth : Authenticator) (hook : option Hook) (rv : bool)
    (op : Operation) (request : Request) (s s1 : gmap N Account)
    (principal t : Account) (payload : gmap string Value) (safe : bool)
    (email : string) (k : UUID) (a : Account) :
  let out := run (router (spec_user_manager rules hash model) model auth hook rv
                    op request) s in
  let cs := extract_change_set model payload safe in
  update_of op = Some (payload, safe) →
  current_user auth true rv (requires_superuser op) request s
  = (Returns principal, s1) →
  update_target op principal s1 = Some t →
  proposed_email cs = Some email →
  s1 !! k = Some a → k ≠ acc_id t →
  normalize_email (acc_email a) = normalize_email email →
  fst out = Raises (HTTPException 400
                      match proposed_password cs ≫= rules with
                      | None => DetailCode UPDATE_USER_EMAIL_ALREADY_EXISTS
                      | Some reason =>
                          DetailCodeReason UPDATE_USER_INVALID_PASSWORD reason
                      end)
  ∧ store (snd out) = s1
  ∧ (∀ ev, ev ∈ trace (snd out) → is_notify ev = false)
  ∧ ∃ e, EvUpdate payload t safe (Raises e) ∈ trace (snd out).
Proof.
  intros out cs Hop Hgate Ht He Hk Hne Ha. subst out cs. rewrite router_eq.
  destruct op; simpl in Hop, Ht, Hgate; simplify_eq;
    simpl; rewrite Hgate; simpl; unfold bind.
  - rewrite update_handler_eq; simpl.
    rewrite (spec_update_collision _ _ _ _ _ _ _ _ _ _ He Hk Hne Ha); simpl.
    destruct (proposed_password _ ≫= rules); simpl;
      (split_and!; [done | done | intros ev Hev; by trace_inv |];
       eexists; rewrite !elem_of_cons; by auto).
  - rewrite get_user_or_404_eq; simpl. unfold spec_get. rewrite Ht; simpl.
    rewrite update_handler_eq; simpl.
    rewrite (spec_update_collision _ _ _ _ _ _ _ _ _ _ He Hk Hne Ha); simpl.
    destruct (proposed_password _ ≫= rules); simpl;
      (split_and!; [done | done | intros ev Hev; by trace_inv |];
       eexists; rewrite !elem_of_cons; by auto).
Qed.

Lemma email_conflict_is_atomic_witness :
  let admin := run (demo_router (Some quiet_hook) (PATCH_id 3 taken_email_payload)
                      as_bob) demo_store in
  let self := run (demo_router (Some quiet_hook)
                     (PATCH_me taken_email_variant_payload) as_bob) demo_store in
  (spec_current_user true false true as_bob demo_store = (Returns bob, demo_store)
   ∧ spec_current_user true false false as_bob demo_store = (Returns bob, demo_store)
   ∧ demo_store !! 3%N = Some carol
   ∧ proposed_email (spec_create_update_dict_superuser taken_email_payload)
     = Some "alice@x.com"
   ∧ proposed_email (spec_create_update_dict taken_email_variant_payload)
     = Some "Alice@X.com"
   ∧ demo_store !! 1%N = Some alice
   ∧ 1%N ≠ acc_id carol ∧ 1%N ≠ acc_id bob
   ∧ normalize_email (acc_email alice) = normalize_email "alice@x.com"
   ∧ normalize_email (acc_email alice) = normalize_email "Alice@X.com")
  ∧ (fst admin
     = Raises (HTTPException 400 (DetailCode UPDATE_USER_EMAIL_ALREADY_EXISTS))
     ∧ store (snd admin) = demo_store)
  ∧ (fst self
     = Raises (HTTPException 400 (DetailCode UPDATE_USER_EMAIL_ALREADY_EXISTS))
     ∧ store (snd self) = demo_store).
Proof.
  intros admin self.
  assert (spec_current_user true false true as_bob demo_store
          = (Returns bob, demo_store)) as Hgate by (vm_compute; reflexivity).
  assert (spec_current_user true false false as_bob demo_store
          = (Returns bob, demo_store)) as Hgate' by (vm_compute; reflexivity).
  assert (demo_store !! 3%N = Some carol) as Hcarol by (vm_compute; reflexivity).
  assert (proposed_email (spec_create_update_dict_superuser taken_email_payload)
          = Some "alice@x.com") as He by (vm_compute; reflexivity).
  assert (proposed_email (spec_create_update_dict taken_email_variant_payload)
          = Some "Alice@X.com") as He' by (vm_compute; reflexivity).
  assert (demo_store !! 1%N = Some alice) as Halice by (vm_compute; reflexivity).
  assert (1%N ≠ acc_id carol) as Hne by (vm_compute; discriminate).
  assert (1%N ≠ acc_id bob) as Hne' by (vm_compute; discriminate).
  assert (normalize_email (acc_email alice) = normalize_email "alice@x.com")
    as Ha by (vm_compute; reflexivity).
  assert (normalize_email (acc_email alice) = normalize_email "Alice@X.com")
    as Ha' by (vm_compute; reflexivity).
  split; [by split_and! |].
  destruct (email_conflict_is_atomic demo_rules demo_hash spec_user_update_model
              spec_authenticator (Some quiet_hook) false
              (PATCH_id 3 taken_email_payload) as_bob demo_store demo_store
              bob carol taken_email_payload false "alice@x.com" 1%N alice
              eq_refl Hgate Hcarol He Halice Hne Ha) as (Hres & Hstore & _).
  destruct (email_conflict_is_atomic demo_rules demo_hash spec_user_update_model
              spec_authenticator (Some quiet_hook) false
              (PATCH_me taken_email_variant_payload) as_bob demo_store demo_store
              bob bob taken_email_variant_payload true "Alice@X.com" 1%N alice
              eq_refl Hgate' eq_refl He' Halice Hne' Ha') as (Hres' & Hstore' & _).
  split; split; [exact Hres | exact Hstore | exact Hres' | exact Hstore'].
Defined.

(** C8, as first stated, fails when the payload also proposes a credential
    that the rules reject: the email collides with alice's, and the answer
    is the invalid-password error, not the already-exists one. *)
Lemma email_conflict_masked_by_rejected_credential :
  let out := run (demo_router None (PATCH_id 3 taken_email_weak_payload) as_bob)
                 demo_store in
  proposed_email (spec_create_update_dict_superuser taken_email_weak_payload)
  = Some "alice@x.com"
  ∧ demo_store !! 3%N = Some carol
  ∧ demo_store !! 1%N = Some alice
  ∧ acc_email alice = "alice@x.com"
  ∧ fst out = Raises (HTTPException 400
                        (DetailCodeReason UPDATE_USER_INVALID_PASSWORD
                           "Password should be at least 3 characters"))
  ∧ fst out ≠ Raises (HTTPException 400
                        (DetailCode UPDATE_USER_EMAIL_ALREADY_EXISTS)).
Proof.
  intros out.
  assert (fst out = Raises (HTTPException 400
                              (DetailCodeReason UPDATE_USER_INVALID_PASSWORD
                                 "Password should be at least 3 characters")))
    as Hres by (vm_compute; reflexivity).
  split_and!; try (vm_compute; reflexivity).
  rewrite Hres. discriminate.
Qed.

(** C9.  An authorized [DELETE /{id}] on an existing account makes three
    calls: the resolver, the lookup, and the manager's delete with the
    account that the lookup returned.  When the delete returns, the
    response is 204 with an empty body.  The hook is never invoked,
    whether one is configured or not. *)
Theorem delete_responds_204_without_hook
    (um : UserManager) (model : UserUpdateModel) (auth : Authenticator)
    (hook : option Hook) (rv : bool)
    (id : UUID) (request : Request) (s s1 s2 : gmap N Account)
    (principal user : Account) :
  let out := run (router um model auth hook rv (DELETE_id id) request) s in
  let deleted := um_delete um user s2 in
  current_user auth true rv true request s = (Returns principal, s1) →
  um_get um id s1 = (Returns user, s2) →
  trace (snd out)
  = [EvResolve true rv true request (Returns principal);
     EvGet id (Returns user);
     EvDelete user (fst deleted)]
  ∧ store (snd out) = snd deleted
  ∧ fst out = match fst deleted with
              | Returns _ => Returns {| status_code := 204; body := None |}
              | Raises e => Raises e
              end
  ∧ (∀ e, e ∈ trace (snd out) → is_notify e = false).
Proof.
  intros out deleted Hgate Hget. subst out deleted.
  rewrite router_eq; simpl. rewrite Hgate; simpl.
  unfold bind. rewrite get_user_or_404_eq; simpl. rewrite Hget; simpl.
  unfold delete_user, bind, call, ret; simpl.
  destruct (um_delete um user s2) as [[[] | e] s3]; simpl;
    (split_and!; [done .. |]; intros ev Hev; by trace_inv).
Qed.

Lemma delete_responds_204_without_hook_witness :
  let out := run (demo_router (Some quiet_hook) (DELETE_id 3) as_bob) demo_store in
  (spec_current_user true false true as_bob demo_store = (Returns bob, demo_store)
   ∧ spec_get 3 demo_store = (Returns carol, demo_store))
  ∧ fst out = Returns {| status_code := 204; body := None |}
  ∧ trace (snd out)
    = [EvResolve true false true as_bob (Returns bob);
       EvGet 3 (Returns carol);
       EvDelete carol (Returns tt)]
  ∧ store (snd out) !! 3%N = None.
Proof.
  intros out.
  assert (spec_current_user true false true as_bob demo_store
          = (Returns bob, demo_store)) as Hgate by (vm_compute; reflexivity).
  assert (spec_get 3 demo_store = (Returns carol, demo_store)) as Hget
    by (vm_compute; reflexivity).
  split; [by split |].
  destruct (delete_responds_204_without_hook demo_manager spec_user_update_model
              spec_authenticator (Some quiet_hook) false 3%N as_bob
              demo_store demo_store demo_store bob carol Hgate Hget)
    as (Htrace & Hstore & Hres & _).
  split; [exact Hres |]. split; [exact Htrace |].
  subst out. unfold demo_router. rewrite Hstore. vm_compute. reflexivity.
Defined.

(** C10.  The [except] clauses of the update handlers also cover the hook.
    When the hook raises after the update has returned, an
    invalid-password error becomes the 400 error with
    [UPDATE_USER_INVALID_PASSWORD] and its reason, an already-exists error
    the 400 error with [UPDATE_USER_EMAIL_ALREADY_EXISTS], and any other
    exception leaves the request as it is.  In each case the store is the
    one that the successful update produced: nothing is rolled back. *)
Theorem hook_errors_use_update_clauses
    (um : UserManager) (model : UserUpdateModel) (auth : Authenticator)
    (hook : option Hook) (rv : bool)
    (op : Operation) (request : Request) (s : gmap N Account)
    (u : Account) (cs : gmap string Value) (rq : Request) (e : Exception) :
  let out := run (router um model auth hook rv op request) s in
  EvNotify u cs rq (Raises e) ∈ trace (snd out) →
  (∀ reason, e = InvalidPasswordException reason →
     fst out = Raises (HTTPException 400
                         (DetailCodeReason UPDATE_USER_INVALID_PASSWORD reason)))
  ∧ (e = UserAlreadyExists →
     fst out = Raises (HTTPException 400
                         (DetailCode UPDATE_USER_EMAIL_ALREADY_EXISTS)))
  ∧ ((∀ reason, e ≠ InvalidPasswordException reason) → e ≠ UserAlreadyExists →
     fst out = Raises e)
  ∧ ∃ p t sf s1,
      EvUpdate p t sf (Returns u) ∈ trace (snd out)
      ∧ um_update um p t sf s1 = (Returns u, store (snd out)).
Proof.
  intros out. subst out. rewrite router_eq.
  destruct op; simpl;
    destruct (current_user auth true rv _ request s) as [[principal | e0] s1];
    simpl; try (intros; by trace_inv).
  - unfold bind. rewrite update_handler_eq; simpl.
    destruct (um_update um user_update principal true s1) as [[a | e1] s2] eqn:Hu;
      simpl; [| intros; by trace_inv].
    destruct hook as [h |]; simpl; [| intros; by trace_inv].
    destruct (h _ _ _) as [[] | e1]; simpl; intros Hin; trace_inv.
    split_and!.
    + by intros reason ->.
    + by intros ->.
    + intros Hp Ha. by rewrite wire_error_other.
    + eexists _, _, _, _. split; [| exact Hu]. rewrite !elem_of_cons; auto.
  - unfold bind. rewrite get_user_or_404_eq; simpl.
    destruct (um_get um id s1) as [[target | []] s2]; simpl; intros; by trace_inv.
  - unfold bind. rewrite get_user_or_404_eq; simpl.
    destruct (um_get um id s1) as [[target | []] s2]; simpl;
      try (intros; by trace_inv).
    rewrite update_handler_eq; simpl.
    destruct (um_update um user_update target false s2) as [[a | e1] s3] eqn:Hu;
      simpl; [| intros; by trace_inv].
    destruct hook as [h |]; simpl; [| intros; by trace_inv].
    destruct (h _ _ _) as [[] | e1]; simpl; intros Hin; trace_inv.
    split_and!.
    + by intros reason ->.
    + by intros ->.
    + intros Hp Ha. by rewrite wire_error_other.
    + eexists _, _, _, _. split; [| exact Hu]. rewrite !elem_of_cons; auto.
  - unfold bind. rewrite get_user_or_404_eq; simpl.
    destruct (um_get um id s1) as [[target | []] s2]; simpl;
      try (intros; by trace_inv).
    unfold delete_user, bind, call, ret; simpl.
    destruct (um_delete um target s2) as [[[] | e1] s3]; simpl; intros; by trace_inv.
Qed.

Lemma hook_errors_use_update_clauses_witness :
  let out := run (demo_router (Some late_hook) (PATCH_me elevate_payload) as_alice)
                 demo_store in
  EvNotify alice_renamed (spec_create_update_dict elevate_payload) as_alice
    (Raises (InvalidPasswordException "late")) ∈ trace (snd out)
  ∧ fst out = Raises (HTTPException 400
                        (DetailCodeReason UPDATE_USER_INVALID_PASSWORD "late"))
  ∧ store (snd out) !! 1%N = Some alice_renamed.
Proof.
  intros out.
  assert (EvNotify alice_renamed (spec_create_update_dict elevate_payload) as_alice
            (Raises (InvalidPasswordException "late")) ∈ trace (snd out))
    as Hin by in_trace.
  split; [exact Hin |].
  destruct (hook_errors_use_update_clauses demo_manager spec_user_update_model
              spec_authenticator (Some late_hook) false (PATCH_me elevate_payload)
              as_alice demo_store _ _ _ _ Hin) as (Hres & _).
  split; [exact (Hres _ eq_refl) |].
  vm_compute. reflexivity.
Defined.

(** ** Further properties of the routes *)

(** X1.  [GET /me] answers from the resolver alone: it makes no call to
    the user manager or the hook, so its whole run is the same under any
    manager, update schema and hook; the answer is 200 with the resolved
    principal, or what the resolver raised. *)
Theorem get_me_ignores_manager
    (um um' : UserManager) (model model' : UserUpdateModel) (auth : Authenticator)
    (hook hook' : option Hook) (rv : bool) (request : Request) (s : gmap N Account) :
  let out := run (router um model auth hook rv GET_me request) s in
  let gate := current_user auth true rv false request s in
  out = run (router um' model' auth hook' rv GET_me request) s
  ∧ trace (snd out) = [EvResolve true rv false request (fst gate)]
  ∧ store (snd out) = snd gate
  ∧ fst out = match fst gate with
              | Returns principal =>
                  Returns {| status_code := 200; body := Some principal |}
              | Raises e => Raises e
              end.
Proof.
  intros out gate. subst out gate. rewrite !router_eq; simpl.
  by destruct (current_user auth true rv false request s) as [[principal | e] s1].
Qed.

(** X2.  An authorized [GET /{id}] on an existing account answers 200
    with the account that the lookup returned, not with the principal; the
    resolver and the lookup are its only calls. *)
Theorem get_user_returns_looked_up_account
    (um : UserManager) (model : UserUpdateModel) (auth : Authenticator)
    (hook : option Hook) (rv : bool)
    (id : UUID) (request : Request) (s s1 s2 : gmap N Account)
    (principal user : Account) :
  let out := run (router um model auth hook rv (GET_id id) request) s in
  current_user auth true rv true request s = (Returns principal, s1) →
  um_get um id s1 = (Returns user, s2) →
  out = (Returns {| status_code := 200; body := Some user |},
         {| store := s2;
            trace := [EvResolve true rv true request (Returns principal);
                      EvGet id (Returns user)] |}).
Proof.
  intros out Hgate Hget. subst out.
  rewrite router_eq; simpl. rewrite Hgate; simpl.
  unfold bind. rewrite get_user_or_404_eq; simpl. by rewrite Hget.
Qed.

Lemma get_user_returns_looked_up_account_witness :
  (spec_current_user true false true as_bob demo_store = (Returns bob, demo_store)
   ∧ spec_get 3 demo_store = (Returns carol, demo_store))
  ∧ fst (run (demo_router None (GET_id 3) as_bob) demo_store)
    = Returns {| status_code := 200; body := Some carol |}.
Proof.
  assert (spec_current_user true false true as_bob demo_store
          = (Returns bob, demo_store)) as Hgate by (vm_compute; reflexivity).
  assert (spec_get 3 demo_store = (Returns carol, demo_store)) as Hget
    by (vm_compute; reflexivity).
  split; [by split |].
  exact (f_equal fst
           (get_user_returns_looked_up_account demo_manager spec_user_update_model
              spec_authenticator None false 3%N as_bob demo_store demo_store
              demo_store bob carol Hgate Hget)).
Defined.

(** X3.  The lookup dependency turns only "not found" into 404: any other
    exception raised by the manager's lookup ends the request unchanged,
    after the resolver call and the lookup and nothing else. *)
Theorem lookup_errors_other_than_not_found_propagate
    (um : UserManager) (model : UserUpdateModel) (auth : Authenticator)
    (hook : option Hook) (rv : bool)
    (op : Operation) (id : UUID) (request : Request) (s : gmap N Account)
    (e : Exception) :
  let out := run (router um model auth hook rv op request) s in
  EvGet id (Raises e) ∈ trace (snd out) →
  e ≠ UserNotExists →
  fst out = Raises e
  ∧ length (trace (snd out)) = 2.
Proof.
  intros out. subst out. rewrite router_eq.
  destruct op; simpl;
    destruct (current_user auth true rv _ request s) as [[principal | e0] s1];
    simpl; run_cases; intros Hin Hne; by trace_inv.
Qed.

Lemma lookup_errors_other_than_not_found_propagate_witness :
  let out := run (flaky_router (DELETE_id 3) as_bob) demo_store in
  (EvGet 3 (Raises (OtherException "ConnectionError")) ∈ trace (snd out)
   ∧ OtherException "ConnectionError" ≠ UserNotExists)
  ∧ fst out = Raises (OtherException "ConnectionError").
Proof.
  intros out.
  assert (EvGet 3 (Raises (OtherException "ConnectionError")) ∈ trace (snd out))
    as Hin by in_trace.
  assert (OtherException "ConnectionError" ≠ UserNotExists) as Hne by discriminate.
  split; [by split |].
  exact (proj1 (lookup_errors_other_than_not_found_propagate flaky_manager
                  spec_user_update_model spec_authenticator None false
                  (DELETE_id 3) 3%N as_bob demo_store _ Hin Hne)).
Defined.

(** X4.  The update handlers catch the two domain errors only: any other
    exception raised by the manager's update ends the request unchanged
    and without a call of the hook.  In particular "not found" raised by
    the update is not turned into 404. *)
Theorem update_errors_without_clause_propagate
    (um : UserManager) (model : UserUpdateModel) (auth : Authenticator)
    (hook : option Hook) (rv : bool)
    (op : Operation) (request : Request) (s : gmap N Account)
    (p : gmap string Value) (t : Account) (sf : bool) (e : Exception) :
  let out := run (router um model auth hook rv op request) s in
  EvUpdate p t sf (Raises e) ∈ trace (snd out) →
  (∀ reason, e ≠ InvalidPasswordException reason) →
  e ≠ UserAlreadyExists →
  fst out = Raises e
  ∧ count_calls is_notify (trace (snd out)) = 0.
Proof.
  intros out. subst out. rewrite router_eq.
  destruct op; simpl;
    destruct (current_user auth true rv _ request s) as [[principal | e0] s1];
    simpl; run_cases; intros Hin Hp Ha; trace_inv;
    (split; [| done]);
    match goal with
    | |- _ = Raises ?x => change (Raises (A:=Response) (wire_error x) = Raises x)
    end;
    by rewrite wire_error_other.
Qed.

Lemma update_errors_without_clause_propagate_witness :
  let out := run (flaky_router (PATCH_me elevate_payload) as_alice) demo_store in
  EvUpdate elevate_payload alice true (Raises UserNotExists) ∈ trace (snd out)
  ∧ fst out = Raises UserNotExists.
Proof.
  intros out.
  assert (EvUpdate elevate_payload alice true (Raises UserNotExists)
          ∈ trace (snd out)) as Hin by in_trace.
  split; [exact Hin |].
  refine (proj1 (update_errors_without_clause_propagate flaky_manager
                   spec_user_update_model spec_authenticator None false
                   (PATCH_me elevate_payload) as_alice demo_store _ _ _ _ Hin _ _));
    discriminate.
Defined.

(** X5.  When the manager's update returned and no invocation of the hook
    raised, an update route answers 200 with the account that the update
    returned. *)
Theorem successful_update_answers_with_updated_account
    (um : UserManager) (model : UserUpdateModel) (auth : Authenticator)
    (hook : option Hook) (rv : bool)
    (op : Operation) (request : Request) (s : gmap N Account)
    (p : gmap string Value) (t : Account) (sf : bool) (u : Account) :
  let out := run (router um model auth hook rv op request) s in
  EvUpdate p t sf (Returns u) ∈ trace (snd out) →
  (∀ ev, ev ∈ trace (snd out) → is_notify ev = true → raised ev = None) →
  fst out = Returns {| status_code := 200; body := Some u |}.
Proof.
  intros out. subst out. rewrite router_eq.
  destruct op; simpl;
    destruct (current_user auth true rv _ request s) as [[principal | e0] s1];
    simpl; run_cases; intros Hin Hok; trace_inv; try done.
  all: exfalso;
    match goal with
    | H : ∀ ev, ev ∈ ?tr → _ |- _ =>
        match tr with
        | context [EvNotify ?a ?cs ?rq (Raises ?x)] =>
            assert (raised (EvNotify a cs rq (Raises x)) = None) as Hbad
              by (apply H; [rewrite !elem_of_cons; auto | done])
        end
    end;
    by simpl in Hbad.
Qed.

Lemma successful_update_answers_with_updated_account_witness :
  let out := run (demo_router (Some quiet_hook) (PATCH_id 3 promote_payload) as_bob)
                 demo_store in
  EvUpdate promote_payload carol false (Returns carol_promoted) ∈ trace (snd out)
  ∧ fst out = Returns {| status_code := 200; body := Some carol_promoted |}.
Proof.
  intros out.
  assert (EvUpdate promote_payload carol false (Returns carol_promoted)
          ∈ trace (snd out)) as Hin by in_trace.
  split; [exact Hin |].
  apply (successful_update_answers_with_updated_account demo_manager
           spec_user_update_model spec_authenticator (Some quiet_hook) false
           (PATCH_id 3 promote_payload) as_bob demo_store _ _ _ _ Hin).
  intros ev Hev Hn. apply list_elem_of_In in Hev. vm_compute in Hev.
  destruct Hev as [<- | [<- | [<- | [<- | []]]]]; first [discriminate Hn | reflexivity].
Defined.

(** X6.  [PATCH /{id}] passes to the manager's update the account that the
    lookup of the path identifier returned, with the request's payload and
    in unsafe mode; the store it leaves is the one that update call left. *)
Theorem admin_update_targets_looked_up_account
    (um : UserManager) (model : UserUpdateModel) (auth : Authenticator)
    (hook : option Hook) (rv : bool)
    (id : UUID) (payload : gmap string Value) (request : Request)
    (s : gmap N Account)
    (p : gmap string Value) (t : Account) (sf : bool) (res : Outcome Account) :
  let out := run (router um model auth hook rv (PATCH_id id payload) request) s in
  let looked_up := um_get um id (snd (current_user auth true rv true request s)) in
  EvUpdate p t sf res ∈ trace (snd out) →
  p = payload ∧ sf = false
  ∧ fst looked_up = Returns t
  ∧ um_update um payload t false (snd looked_up) = (res, store (snd out)).
Proof.
  intros out looked_up. subst out looked_up. rewrite router_eq; simpl.
  destruct (current_user auth true rv true request s) as [[principal | e0] s1];
    simpl; [| intros; by trace_inv].
  unfold bind. rewrite get_user_or_404_eq; simpl.
  destruct (um_get um id s1) as [[target | []] s2]; simpl;
    try (intros; by trace_inv).
  rewrite update_handler_eq; simpl.
  destruct (um_update um payload target false s2) as [[u | e] s3] eqn:Hu; simpl;
    [destruct hook as [h |]; simpl; [destruct (h _ _ _) as [[] | e]; simpl |] |];
    intros Hin; by trace_inv.
Qed.

Lemma admin_update_targets_looked_up_account_witness :
  let out := run (demo_router None (PATCH_id 3 promote_payload) as_bob) demo_store in
  EvUpdate promote_payload carol false (Returns carol_promoted) ∈ trace (snd out)
  ∧ fst (spec_get 3 demo_store) = Returns carol.
Proof.
  intros out.
  assert (EvUpdate promote_payload carol false (Returns carol_promoted)
          ∈ trace (snd out)) as Hin by in_trace.
  split; [exact Hin |].
  destruct (admin_update_targets_looked_up_account demo_manager
              spec_user_update_model spec_authenticator None false 3%N
              promote_payload as_bob demo_store _ _ _ _ Hin)
    as (_ & _ & Hget & _).
  exact Hget.
Defined.

(** X7.  The id-addressed routes use the gate only as a gate: which
    principal it returned has no influence on the response, on the store
    or on any call after the resolver's. *)
Theorem id_routes_ignore_principal
    (um : UserManager) (model : UserUpdateModel) (auth auth' : Authenticator)
    (hook : option Hook) (rv : bool)
    (op : Operation) (request : Request) (s s1 : gmap N Account)
    (principal principal' : Account) :
  let out := run (router um model auth hook rv op request) s in
  let out' := run (router um model auth' hook rv op request) s in
  is_Some (target_id op) →
  current_user auth true rv true request s = (Returns principal, s1) →
  current_user auth' true rv true request s = (Returns principal', s1) →
  fst out = fst out'
  ∧ store (snd out) = store (snd out')
  ∧ tail (trace (snd out)) = tail (trace (snd out')).
Proof.
  intros out out' Hid Hgate Hgate'. subst out out'. rewrite !router_eq.
  destruct op; simpl in *; try (by destruct Hid);
    rewrite Hgate, Hgate'; simpl; run_cases; done.
Qed.

Lemma id_routes_ignore_principal_witness :
  let out := run (demo_router None (PATCH_id 3 promote_payload) as_bob) demo_store in
  let out' := run (router demo_manager spec_user_update_model
                     (open_authenticator alice) None false
                     (PATCH_id 3 promote_payload) as_bob) demo_store in
  (spec_current_user true false true as_bob demo_store = (Returns bob, demo_store)
   ∧ current_user (open_authenticator alice) true false true as_bob demo_store
     = (Returns alice, demo_store))
  ∧ fst out = fst out' ∧ store (snd out) = store (snd out').
Proof.
  intros out out'.
  assert (spec_current_user true false true as_bob demo_store
          = (Returns bob, demo_store)) as Hgate by (vm_compute; reflexivity).
  assert (current_user (open_authenticator alice) true false true as_bob demo_store
          = (Returns alice, demo_store)) as Hgate' by reflexivity.
  split; [by split |].
  destruct (id_routes_ignore_principal demo_manager spec_user_update_model
              spec_authenticator (open_authenticator alice) None false
              (PATCH_id 3 promote_payload) as_bob demo_store demo_store bob alice
              (ltac:(by eexists)) Hgate Hgate') as (Hres & Hstore & _).
  split; [exact Hres | exact Hstore].
Defined.

(** X8.  Each kind of call belongs to its routes: a lookup happens only
    on an id-addressed route, an update and a notification only on a PATCH,
    a deletion only on DELETE.  The two GET routes therefore never write
    and never notify. *)
Theorem calls_belong_to_their_routes
    (um : UserManager) (model : UserUpdateModel) (auth : Authenticator)
    (hook : option Hook) (rv : bool)
    (op : Operation) (request : Request) (s : gmap N Account) (ev : Event) :
  let out := run (router um model auth hook rv op request) s in
  ev ∈ trace (snd out) →
  (is_get ev = true → is_Some (target_id op))
  ∧ (is_update ev = true → is_Some (update_of op))
  ∧ (is_notify ev = true → is_Some (update_of op))
  ∧ (is_delete ev = true → ∃ id, op = DELETE_id id).
Proof.
  intros out. subst out. rewrite router_eq.
  destruct op; simpl;
    destruct (current_user auth true rv _ request s) as [[principal | e0] s1];
    simpl; run_cases; intros Hin; trace_inv;
    (split_and!; intros Hk; first [ done | by eexists ]).
Qed.

Lemma calls_belong_to_their_routes_witness :
  let out := run (demo_router None (DELETE_id 3) as_bob) demo_store in
  EvDelete carol (Returns tt) ∈ trace (snd out)
  ∧ ∃ id, DELETE_id 3 = DELETE_id id.
Proof.
  intros out.
  assert (EvDelete carol (Returns tt) ∈ trace (snd out)) as Hin by in_trace.
  split; [exact Hin |].
  destruct (calls_belong_to_their_routes demo_manager spec_user_update_model
              spec_authenticator None false (DELETE_id 3) as_bob demo_store _ Hin)
    as (_ & _ & _ & Hdel).
  exact (Hdel eq_refl).
Defined.

(** X9.  A request resolves the principal exactly once and makes each of
    the other calls at most once: one lookup, one update, one deletion, one
    notification, four calls in all at most. *)
Theorem each_call_at_most_once
    (um : UserManager) (model : UserUpdateModel) (auth : Authenticator)
    (hook : option Hook) (rv : bool)
    (op : Operation) (request : Request) (s : gmap N Account) :
  let tr := trace (snd (run (router um model auth hook rv op request) s)) in
  count_calls is_resolve tr = 1
  ∧ count_calls is_get tr ≤ 1
  ∧ count_calls is_update tr ≤ 1
  ∧ count_calls is_delete tr ≤ 1
  ∧ count_calls is_notify tr ≤ 1
  ∧ length tr ≤ 4.
Proof.
  intros tr. subst tr. rewrite router_eq.
  destruct op; simpl;
    destruct (current_user auth true rv _ request s) as [[principal | e0] s1];
    simpl; run_cases; unfold count_calls; simpl; lia.
Qed.

(** X11.  A request that is answered is answered 204 without a body on
    [DELETE /{id}] and 200 with an account on every other route. *)
Theorem answers_are_200_or_204
    (um : UserManager) (model : UserUpdateModel) (auth : Authenticator)
    (hook : option Hook) (rv : bool)
    (op : Operation) (request : Request) (s : gmap N Account) (resp : Response) :
  fst (run (router um model auth hook rv op request) s) = Returns resp →
  match op with
  | DELETE_id _ => resp = {| status_code := 204; body := None |}
  | _ => status_code resp = 200%Z ∧ is_Some (body resp)
  end.
Proof.
  rewrite router_eq.
  destruct op; simpl;
    destruct (current_user auth true rv _ request s) as [[principal | e0] s1];
    simpl; run_cases; intros Hresp; simplify_eq/=; first [ done | by eexists ].
Qed.

Lemma answers_are_200_or_204_witness :
  fst (run (demo_router None (DELETE_id 3) as_bob) demo_store)
  = Returns {| status_code := 204; body := None |}
  ∧ fst (run (demo_router None GET_me as_alice) demo_store)
    = Returns {| status_code := 200; body := Some alice |}.
Proof.
  assert (fst (run (demo_router None GET_me as_alice) demo_store)
          = Returns {| status_code := 200; body := Some alice |}) as Hme
    by (vm_compute; reflexivity).
  split; [| exact Hme].
  assert (∃ resp, fst (run (demo_router None (DELETE_id 3) as_bob) demo_store)
                  = Returns resp) as [resp Hresp] by (eexists; vm_compute; reflexivity).
  rewrite Hresp. f_equal.
  exact (answers_are_200_or_204 demo_manager spec_user_update_model
           spec_authenticator None false (DELETE_id 3) as_bob demo_store resp Hresp).
Defined.

(** X12.  The router raises three HTTP errors of its own and no other:
    when no collaborator raised an [HTTPException], a request that ends
    with one ends with 404 without detail after a lookup that raised "not
    found", or with 400 and one of the two update codes. *)
Theorem http_errors_of_the_router
    (um : UserManager) (model : UserUpdateModel) (auth : Authenticator)
    (hook : option Hook) (rv : bool)
    (op : Operation) (request : Request) (s : gmap N Account)
    (code : Z) (detail : Detail) :
  let out := run (router um model auth hook rv op request) s in
  fst out = Raises (HTTPException code detail) →
  (∀ ev e, ev ∈ trace (snd out) → raised ev = Some e → is_http e = false) →
  (code = 404%Z ∧ detail = NoDetail
   ∧ ∃ id, EvGet id (Raises UserNotExists) ∈ trace (snd out))
  ∨ (code = 400%Z
     ∧ (detail = DetailCode UPDATE_USER_EMAIL_ALREADY_EXISTS
        ∨ ∃ reason, detail = DetailCodeReason UPDATE_USER_INVALID_PASSWORD reason)
     ∧ is_Some (update_of op)).
Proof.
  intros out. subst out. rewrite router_eq.
  destruct op; simpl;
    destruct (current_user auth true rv _ request s) as [[principal | e0] s1];
    simpl; run_cases; intros Hres Hraised; try done.
  all: match type of Hraised with
       | ∀ ev e, ev ∈ ?tr → _ => feed_raised Hraised tr
       end.
  all: repeat match goal with
              | H : ∃ e, raised _ = Some e ∧ _ |- _ => destruct H as (? & ? & ?)
              end; simplify_eq/=.
  all: try match goal with
           | H : wire_error ?x = _ |- _ => destruct x; simplify_eq/=
           end.
  all: first
         [ left; split_and!; [done | done |];
           eexists; rewrite !elem_of_cons; by auto
         | right; split_and!; [done | by eauto | by eexists] ].
Qed.

Lemma http_errors_of_the_router_witness :
  let out := run (demo_router None (GET_id 7) as_bob) demo_store in
  fst out = Raises (HTTPException 404 NoDetail)
  ∧ (∀ ev e, ev ∈ trace (snd out) → raised ev = Some e → is_http e = false)
  ∧ ∃ id, EvGet id (Raises UserNotExists) ∈ trace (snd out).
Proof.
  intros out.
  assert (fst out = Raises (HTTPException 404 NoDetail)) as Hres
    by (vm_compute; reflexivity).
  assert (∀ ev e, ev ∈ trace (snd out) → raised ev = Some e → is_http e = false)
    as Hraised.
  { intros ev e Hev Hr. apply list_elem_of_In in Hev. vm_compute in Hev.
    destruct Hev as [<- | [<- | []]]; simpl in Hr; [discriminate Hr |].
    injection Hr as <-. reflexivity. }
  split; [exact Hres |]. split; [exact Hraised |].
  destruct (http_errors_of_the_router demo_manager spec_user_update_model
              spec_authenticator None false (GET_id 7) as_bob demo_store
              404 NoDetail Hres Hraised) as [(_ & _ & Hget) | (H400 & _)].
  - exact Hget.
  - discriminate H400.
Defined.

(** X13.  The first failure ends a request: every call but the last one
    returned, and in a request that is answered the last one returned as
    well. *)
Theorem first_failure_is_final
    (um : UserManager) (model : UserUpdateModel) (auth : Authenticator)
    (hook : option Hook) (rv : bool)
    (op : Operation) (request : Request) (s : gmap N Account)
    (pre : list Event) (ev : Event) (post : list Event) :
  let out := run (router um model auth hook rv op request) s in
  trace (snd out) = pre ++ ev :: post →
  (post ≠ [] → raised ev = None)
  ∧ (∀ resp, fst out = Returns resp → raised ev = None).
Proof.
  intros out. subst out. rewrite router_eq.
  destruct op; simpl;
    destruct (current_user auth true rv _ request s) as [[principal | e0] s1];
    simpl; run_cases; intros Htr;
    repeat (destruct pre as [| ? pre]; simplify_eq/=);
    (split; [intros Hpost | intros resp Hresp]; by simplify_eq/=).
Qed.

Lemma first_failure_is_final_witness :
  let out := run (demo_router (Some quiet_hook) (PATCH_id 3 taken_email_payload) as_bob)
                 demo_store in
  trace (snd out)
  = [EvResolve true false true as_bob (Returns bob)]
    ++ EvGet 3 (Returns carol)
    :: [EvUpdate taken_email_payload carol false (Raises UserAlreadyExists)]
  ∧ raised (EvGet 3 (Returns carol)) = None.
Proof.
  intros out.
  assert (trace (snd out)
          = [EvResolve true false true as_bob (Returns bob)]
            ++ EvGet 3 (Returns carol)
            :: [EvUpdate taken_email_payload carol false (Raises UserAlreadyExists)])
    as Htr by (vm_compute; reflexivity).
  split; [exact Htr |].
  refine (proj1 (first_failure_is_final demo_manager spec_user_update_model
                   spec_authenticator (Some quiet_hook) false
                   (PATCH_id 3 taken_email_payload) as_bob demo_store _ _ _ Htr) _).
  discriminate.
Defined.
